(** * ComponentWidget: the component panel of the Metal GUI

    A shallow embedding of
    [qiskit_metal/_gui/widgets/edit_component/component_widget.py].

    The widget owns one piece of state of its own, [component_name]; every
    other effect is a call on a Qt object or on a collaborator
    ([QTableModel_Options], [create_source_edit_widget], the logger).  A
    method is modelled as a function from the environment it reads and the
    widget it runs on to a [Run]: the widget afterwards, the calls it made
    on its collaborators in the order it made them, and how it ended
    (returned, or raised a Python exception).

    Conventions.
    - A Python [str] is a [string]; one [ascii] stands for one code point
      below 256.
    - [None] is [None]: an optional value is an [option].
    - Collaborator calls (Qt setters, [model.refresh], the message box, the
      logger, the editor factory) are assumed to return normally; the
      exceptions modelled are the ones Python itself raises in this file:
      attribute access on [None], [inspect.getfile] on a class without a
      source file, and [Path.read_text] on a path that cannot be read. *)

From Stdlib Require Import String Ascii List.
From stdpp Require Import base option list strings gmap.

Local Open Scope string_scope.

(** ** Text helpers *)

Definition dq : string := String "034"%char EmptyString.
Definition nl : string := String "010"%char EmptyString.

(** The lines of a triple-quoted literal, joined by newlines. *)
Fixpoint unlines (ls : list string) : string :=
  match ls with
  | [] => EmptyString
  | l :: rest =>
      match rest with
      | [] => l
      | _ :: _ => l +:+ nl +:+ unlines rest
      end
  end.

(** [str.isspace] on one code point below 256: TAB to CR, FS to US, the
    space, NEL (0x85) and the no-break space (0xA0). *)
Definition isspace (a : ascii) : bool :=
  let n := nat_of_ascii a in
  (((9 <=? n) && (n <=? 13)) || ((28 <=? n) && (n <=? 32))
   || (n =? 133) || (n =? 160))%nat.

Fixpoint lstrip (s : string) : string :=
  match s with
  | EmptyString => EmptyString
  | String a s' => if isspace a then lstrip s' else s
  end.

Definition rstrip (s : string) : string :=
  String.rev (lstrip (String.rev s)).

(** [str.strip()] with no argument. *)
Definition strip (s : string) : string := rstrip (lstrip s).

(** [s in t] for Python strings. *)
Definition Substring (s t : string) : Prop :=
  exists pre post, t = pre +:+ s +:+ post.

(** ** Module-level names *)

(** What the [pygments] import provides to this module, when it succeeds:
    [highlight(text, lexer, formatter)] at the lexer
    [get_lexer_by_name("python", stripall=True)] and the formatter
    [HtmlFormatter(linenos='inline')], and that formatter's
    [get_style_defs('.highlight')]. *)
Record Pygments := {
  highlight_python : string -> string;
  style_defs : string;
}.

Definition textHelp_css_style : string := unlines [
  EmptyString;
  "body {";
  "  background-color: #f7f7f7;";
  "  color: #000000;";
  "  text-color : #000000;";
  "}";
  EmptyString;
  ".ComponentHeader th {";
  "    text-align: left;";
  "    background-color: #EEEEEE;";
  "    padding-right: 10px;";
  "}";
  EmptyString;
  ".ComponentHeader td {";
  "    text-align: left;";
  "    padding-left: 5px;";
  "    color: brown;";
  "}";
  EmptyString;
  ".ComponentHeader {";
  "    font-size: 1.5em;";
  "    text-align: left;";
  "    margin-top: 5px;";
  "    margin-bottom: 5px;";
  "    padding-right: 40px;";
  "}";
  EmptyString;
  ".h1 {";
  "  display: block;";
  "  font-size: large;";
  "  margin-top: 0.67em;";
  "  margin-bottom: 0.67em;";
  "  margin-left: 0;";
  "  margin-right: 0;";
  "  font-weight: bold;";
  "}";
  EmptyString;
  "/*.DocString {";
  "    font-family: monospace;";
  "}*/";
  EmptyString ].

(** [format_docstr(doc)] *)
Definition format_docstr (doc : option string) : string :=
  match doc with
  | None => EmptyString
  | Some doc =>
      let doc := strip doc in
      unlines [
        EmptyString;
        "<pre style=" +:+ dq +:+ "background-color: #EBECE4;" +:+ dq +:+ ">";
        "<code class=" +:+ dq +:+ "DocString" +:+ dq +:+ ">" +:+ doc +:+ "</code>";
        "</pre>";
        "    " ]
  end.

(** ** Components and the design registry *)

(** A Python class as this module looks at it: [__name__], [__module__] and
    what [inspect.getfile] finds for it.  [source_file] is [None] when
    [inspect.getfile] raises [TypeError]: a built-in class, or a class made
    in a notebook, whose module has no [__file__]. *)
Record PyClass := {
  __name__ : string;
  __module__ : string;
  source_file : option string;
}.

(** [type(None)] *)
Definition NoneType : PyClass :=
  {| __name__ := "NoneType"; __module__ := "builtins"; source_file := None |}.

(** A [QComponent] restricted to what the widget reads: [component.name],
    [component.__class__], [inspect.getdoc(component)] and
    [inspect.getdoc(component.__init__)].  Both docstrings have the type
    [inspect.getdoc] returns; for a bound [__init__] it finds at least the
    docstring inherited from [object.__init__]. *)
Record QComponent := {
  name : string;
  __class__ : PyClass;
  getdoc : option string;
  getdoc_init : option string;
}.

(** [design.components]: the registry, a dict from names to components. *)
Record QDesign := {
  components : gmap string QComponent;
}.

(** What a method reads and never writes: [gui.design] ([None] while no
    design is loaded), the files [Path.read_text] can read, and the module's
    [highlight] ([None] after a failed import). *)
Record Env := {
  design : option QDesign;
  files : gmap string string;
  highlight : option Pygments;
}.

(** ** The widget *)

Inductive DocContents :=
| PlainText (text : string)
| Html (html : string).

Record QTextDocument := {
  defaultStyleSheet : string;
  contents : DocContents;
}.

(** The value [create_source_edit_widget] returns. *)
Record SourceEditWidget := {
  sew_class_name : string;
  sew_module_name : string;
  sew_module_path : string;
  sew_parent : option string;
}.

Record ComponentWidget := {
  component_name : option string;
  windowTitle : string;
  parent_windowTitle : string;
  lineSourcePath : string;
  src_doc : QTextDocument;
  _html_css_lex : option string;
  textHelp : QTextDocument;
  src_widgets : list SourceEditWidget;
}.

(** The calls a method makes on its collaborators.  [Model_refresh] records
    the selection the model finds in the widget when it is refreshed. *)
Inductive Event :=
| Logger_error (msg : string)
| Logger_info (msg : string)
| SetWindowTitle (title : string)
| Parent_setWindowTitle (title : string)
| LineSourcePath_setText (path : string)
| SrcDoc_setDefaultStyleSheet (css : string)
| SrcDoc_setHtml (html : string)
| SrcDoc_setPlainText (text : string)
| TextHelp_setHtml (html : string)
| Model_refresh (selected : option string)
| TableView_autoresize_columns
| Create_source_edit_widget (w : SourceEditWidget)
| QMessageBox_warning (title text : string).

Inductive exn := AttributeError | TypeError | FileNotFoundError.

Inductive result (A : Type) :=
| Returned (a : A)
| Raised (e : exn).
Arguments Returned {A} a.
Arguments Raised {A} e.

Record Run (A : Type) := mkRun {
  final : ComponentWidget;
  calls : list Event;
  outcome : result A;
}.
Arguments mkRun {A} final calls outcome.
Arguments final {A} r.
Arguments calls {A} r.
Arguments outcome {A} r.

Definition M (A : Type) : Type := Env -> ComponentWidget -> Run A.

Definition ret {A} (a : A) : M A := fun _ self => mkRun self [] (Returned a).

Definition raise {A} (e : exn) : M A := fun _ self => mkRun self [] (Raised e).

(** Sequencing: an exception ends the method; the widget keeps what was
    written before it and the calls made before it stay made. *)
Definition bind {A B} (m : M A) (k : A -> M B) : M B := fun env self =>
  match m env self with
  | mkRun self' made (Raised e) => mkRun self' made (Raised e)
  | mkRun self' made (Returned a) =>
      match k a env self' with
      | mkRun self'' made' o => mkRun self'' (made ++ made') o
      end
  end.

Declare Scope py_scope.
Delimit Scope py_scope with py.
Notation "x <- m ;; k" := (bind m (fun x => k))
  (at level 100, m at next level, right associativity) : py_scope.
Notation "m ;; k" := (bind m (fun _ => k))
  (at level 100, right associativity) : py_scope.
Local Open Scope py_scope.

Definition ask : M Env := fun env self => mkRun self [] (Returned env).
Definition this : M ComponentWidget := fun _ self => mkRun self [] (Returned self).
Definition call (e : Event) : M unit := fun _ self => mkRun self [e] (Returned tt).
Definition update (f : ComponentWidget -> ComponentWidget) : M unit :=
  fun _ self => mkRun (f self) [] (Returned tt).

(** ** Attribute writes on the widget and its Qt children *)

Definition with_component_name (v : option string) (w : ComponentWidget) :=
  {| component_name := v; windowTitle := windowTitle w;
     parent_windowTitle := parent_windowTitle w;
     lineSourcePath := lineSourcePath w; src_doc := src_doc w;
     _html_css_lex := _html_css_lex w; textHelp := textHelp w;
     src_widgets := src_widgets w |}.

Definition with_windowTitle (v : string) (w : ComponentWidget) :=
  {| component_name := component_name w; windowTitle := v;
     parent_windowTitle := parent_windowTitle w;
     lineSourcePath := lineSourcePath w; src_doc := src_doc w;
     _html_css_lex := _html_css_lex w; textHelp := textHelp w;
     src_widgets := src_widgets w |}.

Definition with_parent_windowTitle (v : string) (w : ComponentWidget) :=
  {| component_name := component_name w; windowTitle := windowTitle w;
     parent_windowTitle := v;
     lineSourcePath := lineSourcePath w; src_doc := src_doc w;
     _html_css_lex := _html_css_lex w; textHelp := textHelp w;
     src_widgets := src_widgets w |}.

Definition with_lineSourcePath (v : string) (w : ComponentWidget) :=
  {| component_name := component_name w; windowTitle := windowTitle w;
     parent_windowTitle := parent_windowTitle w;
     lineSourcePath := v; src_doc := src_doc w;
     _html_css_lex := _html_css_lex w; textHelp := textHelp w;
     src_widgets := src_widgets w |}.

Definition with_src_doc (v : QTextDocument) (w : ComponentWidget) :=
  {| component_name := component_name w; windowTitle := windowTitle w;
     parent_windowTitle := parent_windowTitle w;
     lineSourcePath := lineSourcePath w; src_doc := v;
     _html_css_lex := _html_css_lex w; textHelp := textHelp w;
     src_widgets := src_widgets w |}.

Definition with_html_css_lex (v : option string) (w : ComponentWidget) :=
  {| component_name := component_name w; windowTitle := windowTitle w;
     parent_windowTitle := parent_windowTitle w;
     lineSourcePath := lineSourcePath w; src_doc := src_doc w;
     _html_css_lex := v; textHelp := textHelp w;
     src_widgets := src_widgets w |}.

Definition with_textHelp (v : QTextDocument) (w : ComponentWidget) :=
  {| component_name := component_name w; windowTitle := windowTitle w;
     parent_windowTitle := parent_windowTitle w;
     lineSourcePath := lineSourcePath w; src_doc := src_doc w;
     _html_css_lex := _html_css_lex w; textHelp := v;
     src_widgets := src_widgets w |}.

Definition with_src_widgets (v : list SourceEditWidget) (w : ComponentWidget) :=
  {| component_name := component_name w; windowTitle := windowTitle w;
     parent_windowTitle := parent_windowTitle w;
     lineSourcePath := lineSourcePath w; src_doc := src_doc w;
     _html_css_lex := _html_css_lex w; textHelp := textHelp w;
     src_widgets := v |}.

Definition with_defaultStyleSheet (css : string) (d : QTextDocument) :=
  {| defaultStyleSheet := css; contents := contents d |}.

Definition with_contents (c : DocContents) (d : QTextDocument) :=
  {| defaultStyleSheet := defaultStyleSheet d; contents := c |}.

(** Each Qt setter writes the property and is a call on the toolkit. *)

Definition setWindowTitle (t : string) : M unit :=
  update (with_windowTitle t) ;; call (SetWindowTitle t).

Definition parent_setWindowTitle (t : string) : M unit :=
  update (with_parent_windowTitle t) ;; call (Parent_setWindowTitle t).

Definition lineSourcePath_setText (p : string) : M unit :=
  update (with_lineSourcePath p) ;; call (LineSourcePath_setText p).

Definition src_doc_setDefaultStyleSheet (css : string) : M unit :=
  update (fun w => with_src_doc (with_defaultStyleSheet css (src_doc w)) w) ;;
  call (SrcDoc_setDefaultStyleSheet css).

Definition src_doc_setHtml (h : string) : M unit :=
  update (fun w => with_src_doc (with_contents (Html h) (src_doc w)) w) ;;
  call (SrcDoc_setHtml h).

Definition src_doc_setPlainText (t : string) : M unit :=
  update (fun w => with_src_doc (with_contents (PlainText t) (src_doc w)) w) ;;
  call (SrcDoc_setPlainText t).

Definition textHelp_setHtml (h : string) : M unit :=
  update (fun w => with_textHelp (with_contents (Html h) (textHelp w)) w) ;;
  call (TextHelp_setHtml h).

(** ** Python primitives that can raise *)

(** [obj.__class__] for an object that is a component or [None]. *)
Definition class_of (component : option QComponent) : PyClass :=
  match component with
  | Some c => __class__ c
  | None => NoneType
  end.

(** [component.name]: [None] has no attribute [name]. *)
Definition attr_name (component : option QComponent) : M string :=
  match component with
  | Some c => ret (name c)
  | None => raise AttributeError
  end.

(** [inspect.getfile(cls)] *)
Definition getfile (cls : PyClass) : M string :=
  match source_file cls with
  | Some path => ret path
  | None => raise TypeError
  end.

(** [Path(filepath).read_text()] *)
Definition read_text (filepath : string) : M string :=
  env <- ask ;;
  match files env !! filepath with
  | Some text => ret text
  | None => raise FileNotFoundError
  end.

(** ** The module's import of pygments

    [import_pygments] is the [try]/[except ImportError] at the top of the
    module, run once when the module is loaded.  Its argument is what the
    import finds: the library, or the message of the [ImportError].  It
    gives the module's [highlight] and the calls made on the logger. *)
Definition import_pygments (found : string + Pygments)
  : option Pygments * list Event :=
  match found with
  | inr pygments => (Some pygments, [])
  | inl e =>
      (None,
       [Logger_error
          ("Error: Could not load python package 'pygments'; Error: " +:+ e)])
  end.

(** ** ComponentWidget *)

(** [create_QTextDocument]: a new, empty document. *)
Definition create_QTextDocument : QTextDocument :=
  {| defaultStyleSheet := EmptyString; contents := PlainText EmptyString |}.

(** [__init__]: the widget as constructed.  The constructor builds the Qt
    children and the table model; it makes none of the calls of [Event]. *)
Definition __init__ : ComponentWidget :=
  {| component_name := None;
     windowTitle := EmptyString;
     parent_windowTitle := EmptyString;
     lineSourcePath := EmptyString;
     src_doc := create_QTextDocument;
     _html_css_lex := None;
     textHelp := {| defaultStyleSheet := textHelp_css_style;
                    contents := PlainText EmptyString |};
     src_widgets := [] |}.

(** The [component] property.  A falsy [self.design] skips the [return], so
    the property is [None]; [dict.get] with the key [None] finds nothing. *)
Definition resolve (env : Env) (self : ComponentWidget) : option QComponent :=
  match design env with
  | Some d =>
      match component_name self with
      | Some n => components d !! n
      | None => None
      end
  | None => None
  end.

Definition component : M (option QComponent) :=
  fun env self => mkRun self [] (Returned (resolve env self)).

(** [force_refresh]: [self.model.refresh()].  The model reads the selection
    back from the widget. *)
Definition force_refresh : M unit :=
  self <- this ;;
  call (Model_refresh (component_name self)).

(** The text [_set_help] builds for a component and the path of its class. *)
Definition help_text (c : QComponent) (filepath : string) : string :=
  let doc_class := format_docstr (getdoc c) in
  let doc_init := format_docstr (getdoc_init c) in
  "<body>"
  +:+ unlines [
    EmptyString;
    "        <div class=" +:+ dq +:+ "h1" +:+ dq +:+ ">Summary:</div>";
    "        <table class=" +:+ dq +:+ "table ComponentHeader" +:+ dq +:+ ">";
    "            <tbody>";
    "                <tr> <th>Name</th> <td>" +:+ name c +:+ "</td></tr>";
    "                <tr> <th>Class</th><td>" +:+ __name__ (__class__ c)
      +:+ "</td></tr>";
    "                <tr> <th>Module</th><td>" +:+ __module__ (__class__ c)
      +:+ "</td></tr>";
    "                <tr> <th>Path </th> <td style=" +:+ dq
      +:+ "text-color=#BBBBBB;" +:+ dq +:+ "> " +:+ filepath +:+ "</td></tr>";
    "            </tbody>";
    "        </table>";
    "        " ]
  +:+ unlines [
    EmptyString;
    "            <div class=" +:+ dq +:+ "h1" +:+ dq +:+ ">Class docstring:</div>";
    "            " +:+ doc_class;
    "            <div class=" +:+ dq +:+ "h1" +:+ dq +:+ ">Init docstring:</div>";
    "            " +:+ doc_init;
    "        " ]
  +:+ "</body>".

Definition _set_help : M unit :=
  component <- component ;;
  match component with
  | None => ret tt
  | Some c =>
      filepath <- getfile (__class__ c) ;;
      textHelp_setHtml (help_text c filepath)
  end.

Definition _set_source : M unit :=
  component <- component ;;
  filepath <- getfile (class_of component) ;;
  lineSourcePath_setText filepath ;;
  text <- read_text filepath ;;
  env <- ask ;;
  match highlight env with
  | Some pygments =>
      update (with_html_css_lex (Some (style_defs pygments))) ;;
      src_doc_setDefaultStyleSheet (style_defs pygments) ;;
      src_doc_setHtml (highlight_python pygments text)
  | None => src_doc_setPlainText text
  end.

(** The window title [set_component] builds. *)
Definition label_text (cname : string) (cls : PyClass) : string :=
  cname +:+ "   :   " +:+ __name__ cls +:+ "   :   " +:+ __module__ cls.

Definition set_component (name : option string) : M unit :=
  update (with_component_name name) ;;
  match name with
  | None => force_refresh
  | Some _ =>
      component <- component ;;
      cname <- attr_name component ;;
      let label_text := label_text cname (class_of component) in
      setWindowTitle label_text ;;
      parent_setWindowTitle label_text ;;
      _set_source ;;
      _set_help ;;
      force_refresh ;;
      call TableView_autoresize_columns
  end.

Definition edit_source (parent : option string) : M unit :=
  component <- component ;;
  match component with
  | Some c =>
      let class_name := __name__ (__class__ c) in
      let module_name := __module__ (__class__ c) in
      module_path <- getfile (__class__ c) ;;
      let w := {| sew_class_name := class_name;
                  sew_module_name := module_name;
                  sew_module_path := module_path;
                  sew_parent := parent |} in
      call (Create_source_edit_widget w) ;;
      update (fun self => with_src_widgets (src_widgets self ++ [w]) self) ;;
      call (Logger_info
              "Edit sources window created. Please find on your screen.")
  | None =>
      call (QMessageBox_warning
              "Missing Selected Component"
              "Please first select a component to edit, by clicking one in the desing components menu.")
  end.

(** ** A small design to run the methods on *)

Definition transmon_pocket_py : string :=
  "/metal/components/qubits/transmon_pocket.py".

Definition TransmonPocket : PyClass :=
  {| __name__ := "TransmonPocket";
     __module__ := "qiskit_metal.components.qubits.transmon_pocket";
     source_file := Some transmon_pocket_py |}.

(** What [inspect.getdoc] finds for an [__init__] without a docstring of
    its own: the one inherited from [object.__init__]. *)
Definition object_init_doc : string :=
  "Initialize self.  See help(type(self)) for accurate signature.".

Definition Q1 : QComponent :=
  {| name := "Q1"; __class__ := TransmonPocket;
     getdoc := Some ("  The base TransmonPocket class." +:+ nl);
     getdoc_init := Some object_init_doc |}.

(** A class made in a notebook: [inspect.getfile] raises on it. *)
Definition NotebookQubit : PyClass :=
  {| __name__ := "MyQubit"; __module__ := "__main__"; source_file := None |}.

Definition Q2 : QComponent :=
  {| name := "Q2"; __class__ := NotebookQubit;
     getdoc := None; getdoc_init := Some object_init_doc |}.

Definition transmon_pocket_src : string :=
  "class TransmonPocket(BaseQubit):" +:+ nl +:+ "    pass" +:+ nl.

Definition demo_design : QDesign :=
  {| components := <["Q1" := Q1]> (<["Q2" := Q2]> ∅) |}.

(** pygments missing, the source file of [TransmonPocket] on disk. *)
Definition demo_env : Env :=
  {| design := Some demo_design;
     files := {[ transmon_pocket_py := transmon_pocket_src ]};
     highlight := None |}.

(** The same design after the source file was moved away. *)
Definition moved_env : Env :=
  {| design := Some demo_design; files := ∅; highlight := None |}.

(** ** Observations on a run *)

(** The name looked up in the registry of the environment. *)
Definition find_component (env : Env) (n : string) : option QComponent :=
  match design env with
  | Some d => components d !! n
  | None => None
  end.

(** The selections the table model saw, one per [refresh()], in order. *)
Definition refreshes (l : list Event) : list (option string) :=
  omap (fun e => match e with Model_refresh s => Some s | _ => None end) l.

(** What a rich-text view shows. *)
Definition rendered (d : DocContents) : string :=
  match d with
  | PlainText t => t
  | Html h => h
  end.

(** The calls [_set_source] makes on the source document for a text. *)
Definition source_calls (hl : option Pygments) (text : string) : list Event :=
  match hl with
  | Some pygments =>
      [SrcDoc_setDefaultStyleSheet (style_defs pygments);
       SrcDoc_setHtml (highlight_python pygments text)]
  | None => [SrcDoc_setPlainText text]
  end.

(** ** Properties of a run

    The properties the methods are checked against, as predicates on the
    environment, the widget and the argument of the call. *)

(** [set_component name] returns, leaves no selection stored, and does what
    the no-component path does and nothing else: one refresh of the model. *)
Definition selection_cleared
    (env : Env) (self : ComponentWidget) (name : option string) : Prop :=
  let r := set_component name env self in
  outcome r = Returned tt
  /\ component_name (final r) = None
  /\ calls r = [Model_refresh None].

(** [set_component (Some n)] stores [n], resolves it, sets the title, then
    refreshes the source pane, the help pane and the table model, in that
    order, and resizes the columns of the table last. *)
Definition selection_cycle
    (env : Env) (self : ComponentWidget) (n : string) : Prop :=
  let r := set_component (Some n) env self in
  exists (c : QComponent) (p text : string),
    find_component env n = Some c
    /\ outcome r = Returned tt
    /\ component_name (final r) = Some n
    /\ windowTitle (final r) = label_text (name c) (__class__ c)
    /\ parent_windowTitle (final r) = label_text (name c) (__class__ c)
    /\ calls r
       = ([SetWindowTitle (label_text (name c) (__class__ c));
           Parent_setWindowTitle (label_text (name c) (__class__ c))]
          ++ (LineSourcePath_setText p :: source_calls (highlight env) text)
          ++ [TextHelp_setHtml (help_text c p)]
          ++ [Model_refresh (Some n)]
          ++ [TableView_autoresize_columns])%list.

(** The table model is refreshed exactly once by [set_component name], and
    the selection it finds in the widget is [name] already. *)
Definition refreshed_once
    (env : Env) (self : ComponentWidget) (name : option string) : Prop :=
  refreshes (calls (set_component name env self)) = [name].

(** [_set_source] returns and shows a warning. *)
Definition source_failure_warned (env : Env) (self : ComponentWidget) : Prop :=
  let r := _set_source env self in
  outcome r = Returned tt
  /\ exists title text, QMessageBox_warning title text ∈ calls r.

(** The help pane of [w] shows component [c]: its name, the name of its
    class and of its module, and its two docstring blocks. *)
Definition help_shows (c : QComponent) (w : ComponentWidget) : Prop :=
  let shown := rendered (contents (textHelp w)) in
  Substring (name c) shown
  /\ Substring (__name__ (__class__ c)) shown
  /\ Substring (__module__ (__class__ c)) shown
  /\ Substring (format_docstr (getdoc c)) shown
  /\ Substring (format_docstr (getdoc_init c)) shown.

(** The block [format_docstr] makes of a docstring that is there. *)
Definition docstring_block (doc : string) : string :=
  nl +:+ "<pre style=" +:+ dq +:+ "background-color: #EBECE4;" +:+ dq +:+ ">"
  +:+ nl +:+ "<code class=" +:+ dq +:+ "DocString" +:+ dq +:+ ">"
  +:+ strip doc +:+ "</code>"
  +:+ nl +:+ "</pre>"
  +:+ nl +:+ "    ".

(** The warning of [edit_source]. *)
Definition missing_selection_warning : Event :=
  QMessageBox_warning
    "Missing Selected Component"
    "Please first select a component to edit, by clicking one in the desing components menu.".

(** The editor [edit_source] opens for a component. *)
Definition editor_for (c : QComponent) (path : string) (parent : option string)
  : SourceEditWidget :=
  {| sew_class_name := __name__ (__class__ c);
     sew_module_name := __module__ (__class__ c);
     sew_module_path := path;
     sew_parent := parent |}.

(** ** The widget over its life

    More observations, for the properties that span several calls. *)

(** A highlighter to run the methods with: it wraps the text. *)
Definition demo_pygments : Pygments :=
  {| highlight_python :=
       fun text => "<div class=highlight><pre>" +:+ text +:+ "</pre></div>";
     style_defs := ".highlight .k { color: #008000 }" |}.

(** The demo design with pygments installed. *)
Definition highlighting_env : Env :=
  {| design := Some demo_design;
     files := {[ transmon_pocket_py := transmon_pocket_src ]};
     highlight := Some demo_pygments |}.

(** The window before a design is loaded: [gui.design] is [None]. *)
Definition no_design_env : Env :=
  {| design := None; files := ∅; highlight := None |}.

(** Everything the widget shows, the stored selection apart, is in [w'] as
    it is in [w]. *)
Definition same_views (w w' : ComponentWidget) : Prop :=
  windowTitle w' = windowTitle w
  /\ parent_windowTitle w' = parent_windowTitle w
  /\ lineSourcePath w' = lineSourcePath w
  /\ src_doc w' = src_doc w
  /\ _html_css_lex w' = _html_css_lex w
  /\ textHelp w' = textHelp w
  /\ src_widgets w' = src_widgets w.

(** The widget after [_set_source] has shown a text. *)
Definition source_shown
    (hl : option Pygments) (text : string) (w : ComponentWidget)
  : ComponentWidget :=
  match hl with
  | Some pygments =>
      let w1 := with_html_css_lex (Some (style_defs pygments)) w in
      let w2 := with_src_doc
                  (with_defaultStyleSheet (style_defs pygments) (src_doc w1))
                  w1 in
      with_src_doc
        (with_contents (Html (highlight_python pygments text)) (src_doc w2)) w2
  | None => with_src_doc (with_contents (PlainText text) (src_doc w)) w
  end.

(** The widget after a selection that went through: name, titles, path
    field, source pane and help pane, written in that order. *)
Definition selected
    (hl : option Pygments) (n : string) (c : QComponent) (p text : string)
    (w : ComponentWidget) : ComponentWidget :=
  let title := label_text (name c) (__class__ c) in
  let w1 := with_parent_windowTitle title
              (with_windowTitle title (with_component_name (Some n) w)) in
  let w2 := source_shown hl text (with_lineSourcePath p w1) in
  with_textHelp (with_contents (Html (help_text c p)) (textHelp w2)) w2.

(** One call from outside: a selection or a request for the editor, each in
    the environment of the moment. *)
Inductive step : ComponentWidget -> ComponentWidget -> Prop :=
| step_set_component (env : Env) (name : option string) (w : ComponentWidget) :
    step w (final (set_component name env w))
| step_edit_source (env : Env) (parent : option string) (w : ComponentWidget) :
    step w (final (edit_source parent env w)).

(** The widgets a window can hold: the constructed one and what calls make
    of it. *)
Definition reachable (w : ComponentWidget) : Prop := rtc step __init__ w.

(** The invariant of the two documents. *)
Definition documents_inv (w : ComponentWidget) : Prop :=
  defaultStyleSheet (textHelp w) = textHelp_css_style
  /\ (_html_css_lex w = None /\ defaultStyleSheet (src_doc w) = EmptyString
      \/ _html_css_lex w = Some (defaultStyleSheet (src_doc w)))
  /\ (contents (textHelp w) = contents (textHelp __init__)
      \/ exists c p, contents (textHelp w) = Html (help_text c p)).

(** Every character of the string is white space. *)
Fixpoint blank (s : string) : bool :=
  match s with
  | EmptyString => true
  | String a s' => isspace a && blank s'
  end.

(** ** The log and the layout of the help page *)

(** The messages given to [logger.error], in order. *)
Definition logger_errors (l : list Event) : list string :=
  omap (fun e => match e with Logger_error m => Some m | _ => None end) l.

(** The calls of a series of selections, each made on the widget the one
    before left, whether that one returned or raised. *)
Fixpoint select_all
    (env : Env) (names : list (option string)) (self : ComponentWidget)
  : list Event :=
  match names with
  | [] => []
  | name :: rest =>
      let r := set_component name env self in
      (calls r ++ select_all env rest (final r))%list
  end.

(** The one line logged when pygments cannot be imported. *)
Definition import_error_message (e : string) : string :=
  "Error: Could not load python package 'pygments'; Error: " +:+ e.

(** A component of a class without a docstring, in a file that can be
    read. *)
Definition Q3 : QComponent :=
  {| name := "Q3"; __class__ := TransmonPocket;
     getdoc := None; getdoc_init := Some object_init_doc |}.

Definition bare_env : Env :=
  {| design := Some {| components := {[ "Q3" := Q3 ]} |};
     files := {[ transmon_pocket_py := transmon_pocket_src ]};
     highlight := None |}.

(** The rows of the summary table that name the component, its class and
    its module. *)
Definition name_row (c : QComponent) : string :=
  "<tr> <th>Name</th> <td>" +:+ name c +:+ "</td></tr>".

Definition class_row (c : QComponent) : string :=
  "<tr> <th>Class</th><td>" +:+ __name__ (__class__ c) +:+ "</td></tr>".

Definition module_row (c : QComponent) : string :=
  "<tr> <th>Module</th><td>" +:+ __module__ (__class__ c) +:+ "</td></tr>".

(** A docstring block as the specification has it: preformatted text
    around the stripped docstring, and the empty string when there is no
    docstring.  Written from the specification, to be compared with what
    [_set_help] puts in the page. *)
Definition spec_docstring_block (doc : option string) : string :=
  match doc with
  | None => EmptyString
  | Some d => docstring_block d
  end.

(** The end of the help page as the specification has it: the heading of
    the class docstring, its block, the heading of the init docstring, its
    block, and the closing tag. *)
Definition spec_docstring_part (c : QComponent) : string :=
  nl +:+ "            <div class=" +:+ dq +:+ "h1" +:+ dq
  +:+ ">Class docstring:</div>" +:+ nl +:+ "            "
  +:+ spec_docstring_block (getdoc c)
  +:+ nl +:+ "            <div class=" +:+ dq +:+ "h1" +:+ dq
  +:+ ">Init docstring:</div>" +:+ nl +:+ "            "
  +:+ spec_docstring_block (getdoc_init c)
  +:+ nl +:+ "        " +:+ "</body>".

(** ** Strings *)

Section Strings.

Lemma append_assoc (s t u : string) : (s +:+ t) +:+ u = s +:+ t +:+ u.
Proof.
  induction s as [|a s IH]; [reflexivity |].
  change (String a ((s +:+ t) +:+ u) = String a (s +:+ t +:+ u)).
  f_equal; exact IH.
Qed.

Lemma append_nil_r (s : string) : s +:+ EmptyString = s.
Proof.
  induction s as [|a s IH]; [reflexivity |].
  change (String a (s +:+ EmptyString) = String a s).
  f_equal; exact IH.
Qed.

Lemma Substring_refl (s : string) : Substring s s.
Proof.
  exists EmptyString, EmptyString.
  change (s = s +:+ EmptyString). now rewrite append_nil_r.
Qed.

Lemma Substring_app_l (s t u : string) :
  Substring s t -> Substring s (t +:+ u).
Proof.
  intros (pre & post & ->). exists pre, (post +:+ u).
  now rewrite !append_assoc.
Qed.

Lemma Substring_app_r (s t u : string) :
  Substring s u -> Substring s (t +:+ u).
Proof.
  intros (pre & post & ->). exists (t +:+ pre), post.
  now rewrite !append_assoc.
Qed.

Lemma Substring_unlines (s l : string) (ls : list string) :
  l ∈ ls -> Substring s l -> Substring s (unlines ls).
Proof.
  intros Hin Hs. induction Hin as [l rest | l l' rest Hin IH].
  - destruct rest; simpl; [assumption | now apply Substring_app_l].
  - destruct rest as [|l'' rest]; [inversion Hin |].
    change (Substring s (l' +:+ nl +:+ unlines (l'' :: rest))).
    apply Substring_app_r, Substring_app_r, IH, Hs.
Qed.

Lemma Substring_empty (s : string) : Substring s EmptyString -> s = EmptyString.
Proof.
  intros (pre & post & H). unfold String.append in H.
  destruct pre; [| discriminate].
  destruct s; [reflexivity | discriminate].
Qed.

End Strings.

(** [substring]: find the part in a text built by [+:+] and [unlines]. *)
Ltac substring :=
  solve [ apply Substring_refl
        | apply Substring_app_l; substring
        | apply Substring_app_r; substring ].

Tactic Notation "in_line" integer(n) :=
  eapply Substring_unlines;
  [ do n apply list_elem_of_further; apply list_elem_of_here | substring ].

(** ** Equations of the methods *)

Ltac py_unfold :=
  unfold set_component, _set_source, _set_help, edit_source, force_refresh,
    setWindowTitle, parent_setWindowTitle, lineSourcePath_setText,
    src_doc_setDefaultStyleSheet, src_doc_setHtml, src_doc_setPlainText,
    textHelp_setHtml, component, attr_name, getfile, read_text,
    bind, ret, raise, ask, this, call, update.

(** The selection decides what the [component] property finds. *)
Lemma resolve_find (env : Env) (self : ComponentWidget) :
  resolve env self
  = match component_name self with
    | Some n => find_component env n
    | None => None
    end.
Proof.
  unfold resolve, find_component.
  destruct (design env), (component_name self); reflexivity.
Qed.

(** [py_eval]: run a method as far as the hypotheses decide its branches. *)
Ltac py_hyps :=
  repeat match goal with
         | H : _ = _ |- _ => rewrite H
         end.

Ltac py_eval :=
  py_unfold;
  repeat (progress (cbn; py_hyps; rewrite ?resolve_find; py_hyps)).

Arguments help_text : simpl never.
Arguments label_text : simpl never.
Arguments format_docstr : simpl never.

Section Equations.

Variables (env : Env) (self : ComponentWidget).

(** [set_component(None)]: the name is cleared and the model refreshed. *)
Lemma set_component_None :
  set_component None env self
  = mkRun (with_component_name None self) [Model_refresh None] (Returned tt).
Proof. reflexivity. Qed.

(** A name the registry does not hold: [component.name] raises. *)
Lemma set_component_unresolved (n : string) :
  find_component env n = None ->
  set_component (Some n) env self
  = mkRun (with_component_name (Some n) self) [] (Raised AttributeError).
Proof.
  intros H. py_eval. reflexivity.
Qed.

(** A component whose class has no source file: [inspect.getfile] raises
    in [_set_source], after the titles were set. *)
Lemma set_component_no_source_file (n : string) (c : QComponent) :
  find_component env n = Some c ->
  source_file (__class__ c) = None ->
  let title := label_text (name c) (__class__ c) in
  set_component (Some n) env self
  = mkRun (with_parent_windowTitle title (with_windowTitle title
             (with_component_name (Some n) self)))
          [SetWindowTitle title; Parent_setWindowTitle title]
          (Raised TypeError).
Proof.
  intros H Hf. py_eval. reflexivity.
Qed.

(** A source file that cannot be read: [read_text] raises, after the
    titles and the path field were set. *)
Lemma set_component_unreadable (n : string) (c : QComponent) (p : string) :
  find_component env n = Some c ->
  source_file (__class__ c) = Some p ->
  files env !! p = None ->
  let title := label_text (name c) (__class__ c) in
  set_component (Some n) env self
  = mkRun (with_lineSourcePath p (with_parent_windowTitle title
             (with_windowTitle title (with_component_name (Some n) self))))
          [SetWindowTitle title; Parent_setWindowTitle title;
           LineSourcePath_setText p]
          (Raised FileNotFoundError).
Proof.
  intros H Hf Hr. py_eval. reflexivity.
Qed.

(** The calls of a selection that goes through, in order. *)
Lemma set_component_resolved
    (n : string) (c : QComponent) (p text : string) :
  find_component env n = Some c ->
  source_file (__class__ c) = Some p ->
  files env !! p = Some text ->
  let title := label_text (name c) (__class__ c) in
  let r := set_component (Some n) env self in
  outcome r = Returned tt
  /\ calls r
     = ([SetWindowTitle title; Parent_setWindowTitle title]
        ++ (LineSourcePath_setText p :: source_calls (highlight env) text)
        ++ [TextHelp_setHtml (help_text c p)]
        ++ [Model_refresh (Some n)]
        ++ [TableView_autoresize_columns])%list
  /\ component_name (final r) = Some n
  /\ windowTitle (final r) = title
  /\ parent_windowTitle (final r) = title
  /\ lineSourcePath (final r) = p
  /\ contents (textHelp (final r)) = Html (help_text c p)
  /\ contents (src_doc (final r))
     = match highlight env with
       | Some pygments => Html (highlight_python pygments text)
       | None => PlainText text
       end
  /\ src_widgets (final r) = src_widgets self.
Proof.
  intros H Hf Hr. py_eval.
  destruct (highlight env) as [pygments|]; py_eval; repeat split; reflexivity.
Qed.

(** Whatever happens next, the name is stored first. *)
Lemma set_component_stores_name (n : option string) :
  component_name (final (set_component n env self)) = n.
Proof.
  destruct n as [n|]; [| reflexivity].
  destruct (find_component env n) as [c|] eqn:H.
  - destruct (source_file (__class__ c)) as [p|] eqn:Hf.
    + destruct (files env !! p) as [text|] eqn:Hr.
      * now destruct (set_component_resolved n c p text H Hf Hr)
          as (_ & _ & ? & _).
      * now rewrite (set_component_unreadable n c p H Hf Hr).
    + now rewrite (set_component_no_source_file n c H Hf).
  - now rewrite (set_component_unresolved n H).
Qed.

(** A selection returns only through one of its two complete paths. *)
Lemma set_component_returns (n : option string) :
  outcome (set_component n env self) = Returned tt ->
  n = None
  \/ exists m c p text,
       n = Some m /\ find_component env m = Some c
       /\ source_file (__class__ c) = Some p /\ files env !! p = Some text.
Proof.
  destruct n as [n|]; [| now left]. intros Hret. right.
  destruct (find_component env n) as [c|] eqn:H.
  - destruct (source_file (__class__ c)) as [p|] eqn:Hf.
    + destruct (files env !! p) as [text|] eqn:Hr.
      * now exists n, c, p, text.
      * rewrite (set_component_unreadable n c p H Hf Hr) in Hret.
        discriminate.
    + rewrite (set_component_no_source_file n c H Hf) in Hret. discriminate.
  - rewrite (set_component_unresolved n H) in Hret. discriminate.
Qed.

End Equations.

(** ** The selection entry point *)

Lemma demo_missing : find_component demo_env "missing" = None.
Proof. vm_compute. reflexivity. Qed.

Lemma demo_empty_name : find_component demo_env EmptyString = None.
Proof. vm_compute. reflexivity. Qed.

Lemma demo_Q1 : find_component demo_env "Q1" = Some Q1.
Proof. vm_compute. reflexivity. Qed.

Lemma demo_Q2 : find_component demo_env "Q2" = Some Q2.
Proof. vm_compute. reflexivity. Qed.

Lemma moved_Q1 : find_component moved_env "Q1" = Some Q1.
Proof. vm_compute. reflexivity. Qed.

Lemma demo_source : files demo_env !! transmon_pocket_py = Some transmon_pocket_src.
Proof. vm_compute. reflexivity. Qed.

Lemma moved_source : files moved_env !! transmon_pocket_py = None.
Proof. vm_compute. reflexivity. Qed.

(** C1. [set_component("missing")] on a design that holds no component of
    that name: the [component] property is [None], and the call raises
    [AttributeError] at [component.name], having stored the name and made
    no call on any view. *)
Theorem set_component_missing_name_raises :
  let r := set_component (Some "missing") demo_env __init__ in
  find_component demo_env "missing" = None
  /\ resolve demo_env (final r) = None
  /\ outcome r = Raised AttributeError
  /\ component_name (final r) = Some "missing"
  /\ calls r = [].
Proof.
  cbv zeta. split; [apply demo_missing |].
  rewrite (set_component_unresolved _ _ _ demo_missing).
  split; [| repeat split].
  rewrite resolve_find. apply demo_missing.
Qed.

(** C2, as stated, fails for the empty string: it is a name like any other,
    the registry does not hold it, and the call raises with the empty string
    stored and the model not refreshed. *)
Lemma set_component_empty_name_not_cleared :
  find_component demo_env EmptyString = None
  /\ ~ selection_cleared demo_env __init__ (Some EmptyString)
  /\ outcome (set_component (Some EmptyString) demo_env __init__)
     = Raised AttributeError
  /\ component_name (final (set_component (Some EmptyString) demo_env __init__))
     = Some EmptyString
  /\ refreshes (calls (set_component (Some EmptyString) demo_env __init__)) = [].
Proof.
  split; [apply demo_empty_name |].
  unfold selection_cleared.
  rewrite (set_component_unresolved _ _ _ demo_empty_name). cbn.
  split; [intros (H & _); discriminate H |].
  repeat split.
Qed.

(** C2, amended. [set_component(None)] returns, leaves [None] as the stored
    selection and runs the no-component path only: the model is refreshed
    once, no other call is made and nothing else of the widget changes. *)
Theorem set_component_None_clears (env : Env) (self : ComponentWidget) :
  selection_cleared env self None
  /\ final (set_component None env self) = with_component_name None self.
Proof.
  unfold selection_cleared. rewrite set_component_None. cbn.
  repeat split; reflexivity.
Qed.

(** C10. [set_component] is not atomic: whenever it raises, the widget
    already holds the new name as its selection. *)
Theorem set_component_not_atomic
    (env : Env) (self : ComponentWidget) (name : option string) (e : exn) :
  outcome (set_component name env self) = Raised e ->
  component_name (final (set_component name env self)) = name.
Proof. intros _. apply set_component_stores_name. Qed.

Lemma set_component_not_atomic_witness :
  outcome (set_component (Some "missing") demo_env __init__)
  = Raised AttributeError
  /\ component_name (final (set_component (Some "missing") demo_env __init__))
     = Some "missing".
Proof.
  assert (H : outcome (set_component (Some "missing") demo_env __init__)
              = Raised AttributeError)
    by (rewrite (set_component_unresolved _ _ _ demo_missing); reflexivity).
  split; [exact H |].
  exact (set_component_not_atomic demo_env __init__ (Some "missing")
           AttributeError H).
Defined.

(** ** The help pane *)

(** C5. With no component resolved, [_set_help] returns without a call and
    leaves the widget, the help document included, as it was. *)
Theorem set_help_absent_no_update (env : Env) (self : ComponentWidget) :
  resolve env self = None ->
  _set_help env self = mkRun self [] (Returned tt)
  /\ textHelp (final (_set_help env self)) = textHelp self.
Proof.
  intros H. assert (E : _set_help env self = mkRun self [] (Returned tt)).
  { py_eval. reflexivity. }
  rewrite E. split; reflexivity.
Qed.

Lemma set_help_absent_no_update_witness :
  resolve demo_env (with_component_name (Some "missing") __init__) = None
  /\ _set_help demo_env (with_component_name (Some "missing") __init__)
     = mkRun (with_component_name (Some "missing") __init__) [] (Returned tt).
Proof.
  split; [exact demo_missing |].
  exact (proj1 (set_help_absent_no_update demo_env
                  (with_component_name (Some "missing") __init__)
                  demo_missing)).
Defined.

(** ** The source pane *)

(** With no component resolved, [inspect.getfile] is given [type(None)] and
    raises; nothing in [_set_source] catches it. *)
Lemma set_source_unresolved (env : Env) (self : ComponentWidget) :
  resolve env self = None ->
  _set_source env self = mkRun self [] (Raised TypeError).
Proof. intros H. py_eval. reflexivity. Qed.

(** C6, as stated, fails: run on the widget as constructed, where no
    component is resolved, [_set_source] raises [TypeError] and shows no
    warning. *)
Lemma set_source_absent_no_warning :
  resolve demo_env __init__ = None
  /\ ~ source_failure_warned demo_env __init__
  /\ outcome (_set_source demo_env __init__) = Raised TypeError
  /\ calls (_set_source demo_env __init__) = [].
Proof.
  unfold source_failure_warned.
  rewrite (set_source_unresolved demo_env __init__ eq_refl). cbn.
  repeat split; try reflexivity. intros (H & _). discriminate H.
Qed.

(** C6, amended. With no component resolved, [_set_source] raises
    [TypeError] to its caller: no call is made, so no warning is shown, and
    the widget is left as it was. *)
Theorem set_source_absent_raises (env : Env) (self : ComponentWidget) :
  resolve env self = None ->
  let r := _set_source env self in
  outcome r = Raised TypeError /\ calls r = [] /\ final r = self.
Proof.
  intros H. cbv zeta. rewrite (set_source_unresolved env self H).
  repeat split; reflexivity.
Qed.

Lemma set_source_absent_raises_witness :
  resolve demo_env __init__ = None
  /\ outcome (_set_source demo_env __init__) = Raised TypeError
  /\ calls (_set_source demo_env __init__) = []
  /\ final (_set_source demo_env __init__) = __init__.
Proof.
  split; [reflexivity |].
  exact (set_source_absent_raises demo_env __init__ eq_refl).
Defined.

(** No selection logs an error, however it ends. *)
Lemma set_component_logs_no_error
    (env : Env) (self : ComponentWidget) (name : option string) :
  logger_errors (calls (set_component name env self)) = [].
Proof.
  destruct name as [n|]; [| reflexivity].
  destruct (find_component env n) as [c|] eqn:H.
  - destruct (source_file (__class__ c)) as [p|] eqn:Hf.
    + destruct (files env !! p) as [text|] eqn:Hr.
      * destruct (set_component_resolved env self n c p text H Hf Hr)
          as (_ & Hc & _).
        rewrite Hc. destruct (highlight env); reflexivity.
      * now rewrite (set_component_unreadable env self n c p H Hf Hr).
    + now rewrite (set_component_no_source_file env self n c H Hf).
  - now rewrite (set_component_unresolved env self n H).
Qed.

Lemma select_all_logs_no_error
    (env : Env) (names : list (option string)) (self : ComponentWidget) :
  logger_errors (select_all env names self) = [].
Proof.
  revert self. induction names as [|name rest IH]; intros self;
    [reflexivity |].
  cbn [select_all]. unfold logger_errors in *.
  rewrite omap_app, IH, app_nil_r.
  apply set_component_logs_no_error.
Qed.



(** ** The selection cycle *)

(** C3, as stated, fails on three selections: a name the registry does not
    hold, a component whose class has no source file, and a component whose
    source file cannot be read.  Each call raises before the cycle is
    through. *)
Lemma selection_cycle_incomplete :
  (find_component demo_env "missing" = None
   /\ ~ selection_cycle demo_env __init__ "missing")
  /\ (find_component demo_env "Q2" = Some Q2
      /\ ~ selection_cycle demo_env __init__ "Q2")
  /\ (find_component moved_env "Q1" = Some Q1
      /\ ~ selection_cycle moved_env __init__ "Q1").
Proof.
  unfold selection_cycle.
  split; [split; [apply demo_missing |] | split; split].
  - intros (c & p & text & _ & Ho & _).
    rewrite (set_component_unresolved _ _ _ demo_missing) in Ho.
    discriminate Ho.
  - apply demo_Q2.
  - intros (c & p & text & _ & Ho & _).
    rewrite (set_component_no_source_file _ _ _ _ demo_Q2 eq_refl) in Ho.
    discriminate Ho.
  - apply moved_Q1.
  - intros (c & p & text & _ & Ho & _).
    rewrite (set_component_unreadable _ _ _ _ _ moved_Q1 eq_refl moved_source)
      in Ho.
    discriminate Ho.
Qed.

(** C3, amended. For a name the registry resolves to a component whose
    class has a source file that can be read, [set_component] stores the
    name, sets the window title to the component's name, class and module
    joined by colons, then refreshes the source pane, the help pane and the
    table model, in that order, and resizes the columns of the table last. *)
Theorem set_component_selection_cycle
    (env : Env) (self : ComponentWidget) (n : string)
    (c : QComponent) (p text : string) :
  find_component env n = Some c ->
  source_file (__class__ c) = Some p ->
  files env !! p = Some text ->
  selection_cycle env self n.
Proof.
  intros H Hf Hr.
  destruct (set_component_resolved env self n c p text H Hf Hr)
    as (Ho & Hc & Hn & Ht & Hpt & _).
  exists c, p, text. repeat split; assumption.
Qed.

Lemma set_component_selection_cycle_witness :
  selection_cycle demo_env __init__ "Q1".
Proof.
  exact (set_component_selection_cycle demo_env __init__ "Q1" Q1
           transmon_pocket_py transmon_pocket_src
           demo_Q1 eq_refl demo_source).
Defined.

(** ** The table model *)

(** C4, as stated, fails on the selections that raise: the model is not
    refreshed at all. *)
Lemma refresh_skipped_on_raise :
  (refreshes (calls (set_component (Some "missing") demo_env __init__)) = []
   /\ ~ refreshed_once demo_env __init__ (Some "missing"))
  /\ (refreshes (calls (set_component (Some "Q2") demo_env __init__)) = []
      /\ ~ refreshed_once demo_env __init__ (Some "Q2"))
  /\ (refreshes (calls (set_component (Some "Q1") moved_env __init__)) = []
      /\ ~ refreshed_once moved_env __init__ (Some "Q1")).
Proof.
  unfold refreshed_once.
  rewrite (set_component_unresolved _ _ _ demo_missing).
  rewrite (set_component_no_source_file _ _ _ _ demo_Q2 eq_refl).
  rewrite (set_component_unreadable _ _ _ _ _ moved_Q1 eq_refl moved_source).
  cbn.
  split; [| split]; (split; [reflexivity | intros H; discriminate H]).
Qed.

(** C4, amended. Every call of [set_component] that returns refreshes the
    table model exactly once, and the model finds the new name stored in the
    widget when it is refreshed. *)
Theorem set_component_refreshes_once
    (env : Env) (self : ComponentWidget) (name : option string) :
  outcome (set_component name env self) = Returned tt ->
  refreshed_once env self name.
Proof.
  intros Hret. unfold refreshed_once.
  destruct (set_component_returns env self name Hret)
    as [-> | (m & c & p & text & -> & H & Hf & Hr)].
  - reflexivity.
  - destruct (set_component_resolved env self m c p text H Hf Hr)
      as (_ & Hc & _).
    rewrite Hc. destruct (highlight env); reflexivity.
Qed.

Lemma set_component_refreshes_once_witness :
  refreshed_once demo_env __init__ (Some "Q1")
  /\ refreshed_once demo_env __init__ None.
Proof.
  split.
  - apply (set_component_refreshes_once demo_env __init__ (Some "Q1")).
    exact (proj1 (set_component_resolved demo_env __init__ "Q1" Q1
                    transmon_pocket_py transmon_pocket_src
                    demo_Q1 eq_refl demo_source)).
  - apply (set_component_refreshes_once demo_env __init__ None).
    reflexivity.
Defined.

(** ** The source editor *)

(** C8, amended. With no component resolved, [edit_source] shows the warning once,
    opens no editor and keeps its list of editors; with a component whose
    class has a source file it opens one editor, appends it to the list and
    shows no warning. *)
Theorem edit_source_spec
    (env : Env) (self : ComponentWidget) (parent : option string) :
  (resolve env self = None ->
   edit_source parent env self
   = mkRun self [missing_selection_warning] (Returned tt))
  /\ (forall (c : QComponent) (p : string),
        resolve env self = Some c ->
        source_file (__class__ c) = Some p ->
        edit_source parent env self
        = mkRun (with_src_widgets
                   (src_widgets self ++ [editor_for c p parent]) self)
                [Create_source_edit_widget (editor_for c p parent);
                 Logger_info
                   "Edit sources window created. Please find on your screen."]
                (Returned tt)).
Proof.
  split.
  - intros H. py_eval. reflexivity.
  - intros c p H Hf. py_eval. reflexivity.
Qed.

Lemma edit_source_spec_witness :
  calls (edit_source None demo_env __init__) = [missing_selection_warning]
  /\ src_widgets (final (edit_source None demo_env __init__)) = []
  /\ calls (edit_source None demo_env
              (with_component_name (Some "Q1") __init__))
     = [Create_source_edit_widget (editor_for Q1 transmon_pocket_py None);
        Logger_info "Edit sources window created. Please find on your screen."]
  /\ src_widgets (final (edit_source None demo_env
                           (with_component_name (Some "Q1") __init__)))
     = [editor_for Q1 transmon_pocket_py None].
Proof.
  rewrite (proj1 (edit_source_spec demo_env __init__ None) eq_refl).
  rewrite (proj2 (edit_source_spec demo_env
                    (with_component_name (Some "Q1") __init__) None)
             Q1 transmon_pocket_py demo_Q1 eq_refl).
  repeat split; reflexivity.
Defined.

(** C8, as stated, fails on a selection that is there but whose class has
    no source file: [Q2] is selected and resolved, yet [edit_source] raises
    [TypeError] at [inspect.getfile], opens no editor and keeps the list of
    editors empty. *)
Lemma edit_source_selected_without_file :
  resolve demo_env (with_component_name (Some "Q2") __init__) = Some Q2
  /\ outcome (edit_source None demo_env
                (with_component_name (Some "Q2") __init__))
     = Raised TypeError
  /\ calls (edit_source None demo_env
              (with_component_name (Some "Q2") __init__)) = []
  /\ src_widgets (final (edit_source None demo_env
                           (with_component_name (Some "Q2") __init__))) = [].
Proof.
  assert (H : resolve demo_env (with_component_name (Some "Q2") __init__)
              = Some Q2) by (rewrite resolve_find; apply demo_Q2).
  split; [exact H |].
  assert (E : edit_source None demo_env
                (with_component_name (Some "Q2") __init__)
              = mkRun (with_component_name (Some "Q2") __init__) []
                  (Raised TypeError))
    by (py_eval; reflexivity).
  rewrite E. repeat split.
Qed.

(** ** What the help pane shows *)

Lemma format_docstr_block (doc : string) :
  format_docstr (Some doc) = docstring_block doc.
Proof.
  unfold format_docstr, docstring_block, unlines.
  now rewrite !append_assoc.
Qed.

(** The text of the help pane holds the three names and the two blocks. *)
Lemma help_text_shows (c : QComponent) (p : string) :
  Substring (name c) (help_text c p)
  /\ Substring (__name__ (__class__ c)) (help_text c p)
  /\ Substring (__module__ (__class__ c)) (help_text c p)
  /\ Substring (format_docstr (getdoc c)) (help_text c p)
  /\ Substring (format_docstr (getdoc_init c)) (help_text c p).
Proof.
  unfold help_text. repeat split.
  - apply Substring_app_r, Substring_app_l. in_line 4.
  - apply Substring_app_r, Substring_app_l. in_line 5.
  - apply Substring_app_r, Substring_app_l. in_line 6.
  - apply Substring_app_r, Substring_app_r, Substring_app_l. in_line 2.
  - apply Substring_app_r, Substring_app_r, Substring_app_l. in_line 4.
Qed.

(** C9, as stated, fails on two components the registry holds: one whose
    class has no source file and one whose source file cannot be read.  The
    selection raises before [_set_help] runs and the help pane, empty since
    the widget was made, shows neither name. *)
Lemma help_pane_stale_without_source :
  (find_component demo_env "Q2" = Some Q2
   /\ ~ help_shows Q2 (final (set_component (Some "Q2") demo_env __init__)))
  /\ (find_component moved_env "Q1" = Some Q1
      /\ ~ help_shows Q1 (final (set_component (Some "Q1") moved_env __init__))).
Proof.
  unfold help_shows.
  rewrite (set_component_no_source_file _ _ _ _ demo_Q2 eq_refl).
  rewrite (set_component_unreadable _ _ _ _ _ moved_Q1 eq_refl moved_source).
  split; split.
  - apply demo_Q2.
  - intros (H & _). apply Substring_empty in H. discriminate H.
  - apply moved_Q1.
  - intros (H & _). apply Substring_empty in H. discriminate H.
Qed.

Lemma Substring_row (pre row l : string) :
  l = pre +:+ row -> Substring row l.
Proof. intros ->. exists pre, EmptyString. now rewrite append_nil_r. Qed.

(** The rows of the summary table are in the page. *)
Lemma help_text_rows (c : QComponent) (p : string) :
  Substring (name_row c) (help_text c p)
  /\ Substring (class_row c) (help_text c p)
  /\ Substring (module_row c) (help_text c p).
Proof.
  unfold help_text. repeat split;
    apply Substring_app_r, Substring_app_l; eapply Substring_unlines.
  - do 4 apply list_elem_of_further. apply list_elem_of_here.
  - apply (Substring_row "                "). reflexivity.
  - do 5 apply list_elem_of_further. apply list_elem_of_here.
  - apply (Substring_row "                "). reflexivity.
  - do 6 apply list_elem_of_further. apply list_elem_of_here.
  - apply (Substring_row "                "). reflexivity.
Qed.

Lemma format_docstr_spec (doc : option string) :
  format_docstr doc = spec_docstring_block doc.
Proof. destruct doc; [apply format_docstr_block | reflexivity]. Qed.

Lemma append_split (a b c d : string) :
  a +:+ b +:+ c +:+ d = (a +:+ b) +:+ (c +:+ d).
Proof. now rewrite append_assoc. Qed.

(** The page ends as the specification has it. *)
Lemma help_text_docstring_part (c : QComponent) (p : string) :
  exists head, help_text c p = head +:+ spec_docstring_part c.
Proof.
  unfold help_text. rewrite append_split. eexists. f_equal.
  rewrite !format_docstr_spec. unfold spec_docstring_part.
  generalize (spec_docstring_block (getdoc c))
             (spec_docstring_block (getdoc_init c)).
  intros b1 b2. cbn [unlines]. rewrite !append_assoc. reflexivity.
Qed.

(** C9, amended. For a name the registry resolves to a component whose
    class has a source file that can be read, the help pane after
    [set_component] holds the component's name, the name of its class and of
    its module, each in its row of the summary table, and both docstring
    blocks; the page ends with the heading of the class docstring, its
    block, the heading of the init docstring, its block and the closing tag,
    where a block is the empty string for a missing docstring and a [pre]
    block around the stripped docstring otherwise. *)
Theorem help_pane_shows_component
    (env : Env) (self : ComponentWidget) (n : string)
    (c : QComponent) (p text : string) :
  find_component env n = Some c ->
  source_file (__class__ c) = Some p ->
  files env !! p = Some text ->
  let shown :=
    rendered (contents (textHelp (final (set_component (Some n) env self)))) in
  help_shows c (final (set_component (Some n) env self))
  /\ format_docstr None = EmptyString
  /\ (forall doc, format_docstr (Some doc) = docstring_block doc)
  /\ Substring (name_row c) shown
  /\ Substring (class_row c) shown
  /\ Substring (module_row c) shown
  /\ (exists head, shown = head +:+ spec_docstring_part c).
Proof.
  intros H Hf Hr. cbv zeta.
  destruct (set_component_resolved env self n c p text H Hf Hr)
    as (_ & _ & _ & _ & _ & _ & Hh & _).
  unfold help_shows. rewrite Hh. cbn [rendered].
  split; [apply help_text_shows |].
  split; [reflexivity |]. split; [apply format_docstr_block |].
  destruct (help_text_rows c p) as (Hn & Hc & Hm).
  repeat split; try assumption. apply help_text_docstring_part.
Qed.

Lemma help_pane_shows_component_witness :
  help_shows Q3 (final (set_component (Some "Q3") bare_env __init__))
  /\ exists head,
       rendered (contents (textHelp
                   (final (set_component (Some "Q3") bare_env __init__))))
       = head +:+ spec_docstring_part Q3.
Proof.
  assert (Hq : find_component bare_env "Q3" = Some Q3)
    by (vm_compute; reflexivity).
  assert (Hs : files bare_env !! transmon_pocket_py = Some transmon_pocket_src)
    by (vm_compute; reflexivity).
  pose proof (help_pane_shows_component bare_env __init__ "Q3" Q3
                transmon_pocket_py transmon_pocket_src Hq eq_refl Hs)
    as (Hshow & _ & _ & _ & _ & _ & Hpart).
  exact (conj Hshow Hpart).
Defined.

(** ** Runs in full *)

Section Runs.

Variables (env : Env) (self : ComponentWidget).

(** A selection that goes through, as one run. *)
Lemma set_component_resolved_run
    (n : string) (c : QComponent) (p text : string) :
  find_component env n = Some c ->
  source_file (__class__ c) = Some p ->
  files env !! p = Some text ->
  set_component (Some n) env self
  = mkRun (selected (highlight env) n c p text self)
          ([SetWindowTitle (label_text (name c) (__class__ c));
            Parent_setWindowTitle (label_text (name c) (__class__ c))]
           ++ (LineSourcePath_setText p :: source_calls (highlight env) text)
           ++ [TextHelp_setHtml (help_text c p)]
           ++ [Model_refresh (Some n)]
           ++ [TableView_autoresize_columns])%list
          (Returned tt).
Proof.
  intros H Hf Hr. unfold selected, source_shown. py_eval.
  destruct (highlight env) as [pygments|]; py_eval; reflexivity.
Qed.

(** The widget a selection leaves, by how far the selection got. *)
Lemma set_component_final (name : option string) :
  let w := final (set_component name env self) in
  w = with_component_name name self
  \/ (exists t,
        w = with_parent_windowTitle t
              (with_windowTitle t (with_component_name name self)))
  \/ (exists t p,
        w = with_lineSourcePath p
              (with_parent_windowTitle t
                 (with_windowTitle t (with_component_name name self))))
  \/ (exists n c p text,
        w = selected (highlight env) n c p text self).
Proof.
  cbv zeta. destruct name as [n|]; [| now left].
  destruct (find_component env n) as [c|] eqn:H.
  - destruct (source_file (__class__ c)) as [p|] eqn:Hf.
    + destruct (files env !! p) as [text|] eqn:Hr.
      * rewrite (set_component_resolved_run n c p text H Hf Hr).
        right; right; right. now exists n, c, p, text.
      * rewrite (set_component_unreadable env self n c p H Hf Hr).
        right; right; left. eauto.
    + rewrite (set_component_no_source_file env self n c H Hf).
      right; left. eauto.
  - rewrite (set_component_unresolved env self n H). now left.
Qed.

(** [edit_source] on a component whose class has no source file. *)
Lemma edit_source_no_file (parent : option string) (c : QComponent) :
  resolve env self = Some c ->
  source_file (__class__ c) = None ->
  edit_source parent env self = mkRun self [] (Raised TypeError).
Proof. intros H Hf. py_eval. reflexivity. Qed.

(** The widget [edit_source] leaves: as it was, or with one more editor. *)
Lemma edit_source_final (parent : option string) :
  let w := final (edit_source parent env self) in
  w = self
  \/ exists e, w = with_src_widgets (src_widgets self ++ [e]) self.
Proof.
  cbv zeta. destruct (resolve env self) as [c|] eqn:H.
  - destruct (source_file (__class__ c)) as [p|] eqn:Hf.
    + right. exists (editor_for c p parent). py_eval. reflexivity.
    + left. now rewrite (edit_source_no_file parent c H Hf).
  - left. py_eval. reflexivity.
Qed.

End Runs.

(** ** Selections, one after another *)

Lemma highlighting_Q1 : find_component highlighting_env "Q1" = Some Q1.
Proof. vm_compute. reflexivity. Qed.

Lemma highlighting_source :
  files highlighting_env !! transmon_pocket_py = Some transmon_pocket_src.
Proof. vm_compute. reflexivity. Qed.

(** X1. With pygments, a selection that goes through gives the source
    document the highlighter's style sheet and then the highlighted text as
    HTML, keeps the style sheet in [_html_css_lex], and never sets plain
    text. *)
Theorem highlighted_source_with_pygments
    (env : Env) (self : ComponentWidget) (n : string)
    (c : QComponent) (p text : string) (pygments : Pygments) :
  highlight env = Some pygments ->
  find_component env n = Some c ->
  source_file (__class__ c) = Some p ->
  files env !! p = Some text ->
  let r := set_component (Some n) env self in
  outcome r = Returned tt
  /\ src_doc (final r)
     = {| defaultStyleSheet := style_defs pygments;
          contents := Html (highlight_python pygments text) |}
  /\ _html_css_lex (final r) = Some (style_defs pygments)
  /\ calls r
     = [SetWindowTitle (label_text (name c) (__class__ c));
        Parent_setWindowTitle (label_text (name c) (__class__ c));
        LineSourcePath_setText p;
        SrcDoc_setDefaultStyleSheet (style_defs pygments);
        SrcDoc_setHtml (highlight_python pygments text);
        TextHelp_setHtml (help_text c p);
        Model_refresh (Some n);
        TableView_autoresize_columns].
Proof.
  intros Hh H Hf Hr. cbv zeta.
  rewrite (set_component_resolved_run env self n c p text H Hf Hr), Hh.
  repeat split.
Qed.

Lemma highlighted_source_with_pygments_witness :
  src_doc (final (set_component (Some "Q1") highlighting_env __init__))
  = {| defaultStyleSheet := style_defs demo_pygments;
       contents := Html (highlight_python demo_pygments transmon_pocket_src) |}.
Proof.
  exact (proj1 (proj2
    (highlighted_source_with_pygments highlighting_env __init__ "Q1" Q1
       transmon_pocket_py transmon_pocket_src demo_pygments
       eq_refl highlighting_Q1 eq_refl highlighting_source))).
Defined.

(** X2. Clearing the selection after a selection that went through clears
    the name only: the titles, the path field, the source pane and the help
    pane go on showing the component that is no longer selected. *)
Theorem clearing_keeps_views
    (env : Env) (self : ComponentWidget) (n : string)
    (c : QComponent) (p text : string) :
  find_component env n = Some c ->
  source_file (__class__ c) = Some p ->
  files env !! p = Some text ->
  let shown := final (set_component (Some n) env self) in
  let r := set_component None env shown in
  component_name (final r) = None
  /\ resolve env (final r) = None
  /\ same_views shown (final r)
  /\ windowTitle (final r) = label_text (name c) (__class__ c)
  /\ lineSourcePath (final r) = p
  /\ contents (textHelp (final r)) = Html (help_text c p).
Proof.
  intros H Hf Hr. cbv zeta. rewrite set_component_None.
  rewrite (set_component_resolved_run env self n c p text H Hf Hr).
  unfold same_views, selected, source_shown.
  split; [reflexivity |]. split; [now rewrite resolve_find |].
  destruct (highlight env); repeat split.
Qed.

Lemma clearing_keeps_views_witness :
  contents (textHelp (final (set_component None demo_env
                               (final (set_component (Some "Q1")
                                         demo_env __init__)))))
  = Html (help_text Q1 transmon_pocket_py).
Proof.
  exact (proj2 (proj2 (proj2 (proj2 (proj2
    (clearing_keeps_views demo_env __init__ "Q1" Q1
       transmon_pocket_py transmon_pocket_src
       demo_Q1 eq_refl demo_source)))))).
Defined.

(** X3. Selecting a name the registry does not hold changes the stored name
    and nothing the widget shows: no call is made, and every view is as it
    was before the call that raised. *)
Theorem unresolved_selection_keeps_views
    (env : Env) (self : ComponentWidget) (n : string) :
  find_component env n = None ->
  let r := set_component (Some n) env self in
  outcome r = Raised AttributeError
  /\ calls r = []
  /\ component_name (final r) = Some n
  /\ same_views self (final r).
Proof.
  intros H. cbv zeta. rewrite (set_component_unresolved env self n H).
  unfold same_views. repeat split.
Qed.

Lemma unresolved_selection_keeps_views_witness :
  same_views __init__ (final (set_component (Some "missing") demo_env __init__)).
Proof.
  exact (proj2 (proj2 (proj2
    (unresolved_selection_keeps_views demo_env __init__ "missing"
       demo_missing)))).
Defined.

(** X4. When the source file of the selected component cannot be read, the
    call raises with the titles and the path field already showing the new
    component, while the source pane and the help pane still hold what they
    held before; the model is not refreshed. *)
Theorem unreadable_source_half_shown
    (env : Env) (self : ComponentWidget) (n : string)
    (c : QComponent) (p : string) :
  find_component env n = Some c ->
  source_file (__class__ c) = Some p ->
  files env !! p = None ->
  let r := set_component (Some n) env self in
  outcome r = Raised FileNotFoundError
  /\ windowTitle (final r) = label_text (name c) (__class__ c)
  /\ parent_windowTitle (final r) = label_text (name c) (__class__ c)
  /\ lineSourcePath (final r) = p
  /\ src_doc (final r) = src_doc self
  /\ textHelp (final r) = textHelp self
  /\ refreshes (calls r) = [].
Proof.
  intros H Hf Hr. cbv zeta.
  rewrite (set_component_unreadable env self n c p H Hf Hr).
  repeat split.
Qed.

Lemma unreadable_source_half_shown_witness :
  lineSourcePath (final (set_component (Some "Q1") moved_env __init__))
  = transmon_pocket_py
  /\ textHelp (final (set_component (Some "Q1") moved_env __init__))
     = textHelp __init__.
Proof.
  pose proof (unreadable_source_half_shown moved_env __init__ "Q1" Q1
                transmon_pocket_py moved_Q1 eq_refl moved_source)
    as (_ & _ & _ & Hp & _ & Hh & _).
  exact (conj Hp Hh).
Defined.

(** X5. When the class of the selected component has no source file, the
    call raises with the titles set to the new component and nothing else
    changed: the path field, the source pane and the help pane are as
    before. *)
Theorem no_source_file_titles_only
    (env : Env) (self : ComponentWidget) (n : string) (c : QComponent) :
  find_component env n = Some c ->
  source_file (__class__ c) = None ->
  let r := set_component (Some n) env self in
  outcome r = Raised TypeError
  /\ windowTitle (final r) = label_text (name c) (__class__ c)
  /\ parent_windowTitle (final r) = label_text (name c) (__class__ c)
  /\ lineSourcePath (final r) = lineSourcePath self
  /\ src_doc (final r) = src_doc self
  /\ textHelp (final r) = textHelp self
  /\ refreshes (calls r) = [].
Proof.
  intros H Hf. cbv zeta.
  rewrite (set_component_no_source_file env self n c H Hf).
  repeat split.
Qed.

Lemma no_source_file_titles_only_witness :
  windowTitle (final (set_component (Some "Q2") demo_env __init__))
  = label_text "Q2" NotebookQubit.
Proof.
  exact (proj1 (proj2
    (no_source_file_titles_only demo_env __init__ "Q2" Q2 demo_Q2 eq_refl))).
Defined.

(** X6. A selection that goes through leaves no trace of the call before
    it: whatever the previous selection was and however it ended, the widget
    is the one the new selection alone would have made. *)
Theorem last_selection_wins
    (env : Env) (self : ComponentWidget) (previous : option string)
    (n : string) (c : QComponent) (p text : string) :
  find_component env n = Some c ->
  source_file (__class__ c) = Some p ->
  files env !! p = Some text ->
  final (set_component (Some n) env
           (final (set_component previous env self)))
  = final (set_component (Some n) env self).
Proof.
  intros H Hf Hr.
  rewrite !(set_component_resolved_run env _ n c p text H Hf Hr).
  cbn [final].
  destruct (set_component_final env self previous)
    as [-> | [(t & ->) | [(t & p' & ->) | (n' & c' & p' & text' & ->)]]];
    unfold selected, source_shown; destruct (highlight env); reflexivity.
Qed.

Lemma last_selection_wins_witness :
  final (set_component (Some "Q1") demo_env
           (final (set_component (Some "Q2") demo_env __init__)))
  = final (set_component (Some "Q1") demo_env __init__).
Proof.
  exact (last_selection_wins demo_env __init__ (Some "Q2") "Q1" Q1
           transmon_pocket_py transmon_pocket_src
           demo_Q1 eq_refl demo_source).
Defined.

(** ** Editors *)

(** [edit_source] on a component whose class has a source file. *)
Lemma edit_source_opens
    (env : Env) (self : ComponentWidget) (parent : option string)
    (c : QComponent) (p : string) :
  resolve env self = Some c ->
  source_file (__class__ c) = Some p ->
  edit_source parent env self
  = mkRun (with_src_widgets (src_widgets self ++ [editor_for c p parent]) self)
          [Create_source_edit_widget (editor_for c p parent);
           Logger_info
             "Edit sources window created. Please find on your screen."]
          (Returned tt).
Proof. intros H Hf. py_eval. reflexivity. Qed.

(** X7. Asking for the editor of a component whose class has no source file
    raises [TypeError] before anything is made: no editor, no warning, no
    log line, and the widget is as it was. *)
Theorem edit_source_without_source_file
    (env : Env) (self : ComponentWidget) (parent : option string)
    (c : QComponent) :
  resolve env self = Some c ->
  source_file (__class__ c) = None ->
  let r := edit_source parent env self in
  outcome r = Raised TypeError /\ calls r = [] /\ final r = self.
Proof.
  intros H Hf. cbv zeta. rewrite (edit_source_no_file env self parent c H Hf).
  repeat split.
Qed.

Lemma edit_source_without_source_file_witness :
  outcome (edit_source None demo_env
             (with_component_name (Some "Q2") __init__))
  = Raised TypeError.
Proof.
  exact (proj1
    (edit_source_without_source_file demo_env
       (with_component_name (Some "Q2") __init__) None Q2 demo_Q2 eq_refl)).
Defined.

(** X8. Editors pile up: two requests for the editor of the selected
    component make two editors, kept in the order they were asked for after
    the ones already there, and leave the selection as it is. *)
Theorem edit_source_accumulates
    (env : Env) (self : ComponentWidget) (parent1 parent2 : option string)
    (c : QComponent) (p : string) :
  resolve env self = Some c ->
  source_file (__class__ c) = Some p ->
  let once := final (edit_source parent1 env self) in
  let twice := final (edit_source parent2 env once) in
  src_widgets twice
  = (src_widgets self ++ [editor_for c p parent1; editor_for c p parent2])%list
  /\ component_name twice = component_name self.
Proof.
  intros H Hf. cbv zeta.
  rewrite (edit_source_opens env self parent1 c p H Hf). cbn [final].
  rewrite (edit_source_opens env
             (with_src_widgets (src_widgets self ++ [editor_for c p parent1])
                self)
             parent2 c p H Hf).
  cbn. split; [now rewrite <- app_assoc | reflexivity].
Qed.

Lemma edit_source_accumulates_witness :
  src_widgets
    (final (edit_source (Some "main") demo_env
              (final (edit_source None demo_env
                        (with_component_name (Some "Q1") __init__)))))
  = [editor_for Q1 transmon_pocket_py None;
     editor_for Q1 transmon_pocket_py (Some "main")].
Proof.
  exact (proj1
    (edit_source_accumulates demo_env
       (with_component_name (Some "Q1") __init__) None (Some "main")
       Q1 transmon_pocket_py demo_Q1 eq_refl)).
Defined.

(** A selection never touches the list of editors. *)
Lemma set_component_src_widgets
    (env : Env) (self : ComponentWidget) (name : option string) :
  src_widgets (final (set_component name env self)) = src_widgets self.
Proof.
  destruct (set_component_final env self name)
    as [-> | [(t & ->) | [(t & p & ->) | (n & c & p & text & ->)]]];
    try reflexivity.
  unfold selected, source_shown. destruct (highlight env); reflexivity.
Qed.

(** X9. The list of editors is never pruned: over any sequence of
    selections and editor requests, in whatever environments and however
    each call ends, the editors the widget held stay at the front of the
    list it holds afterwards. *)
Theorem editors_never_pruned (w w' : ComponentWidget) :
  rtc step w w' -> src_widgets w `prefix_of` src_widgets w'.
Proof.
  induction 1 as [w | w w1 w' Hstep _ IH]; [reflexivity |].
  etransitivity; [| exact IH].
  destruct Hstep as [env name w | env parent w].
  - now rewrite set_component_src_widgets.
  - destruct (edit_source_final env w parent) as [-> | (e & ->)];
      [reflexivity | now apply prefix_app_r].
Qed.

Lemma editors_never_pruned_witness :
  src_widgets (with_component_name (Some "Q1") __init__)
  `prefix_of`
  src_widgets
    (final (set_component None demo_env
              (final (edit_source None demo_env
                        (with_component_name (Some "Q1") __init__))))).
Proof.
  apply editors_never_pruned.
  eapply rtc_l; [apply step_edit_source |].
  eapply rtc_l; [apply step_set_component |].
  apply rtc_refl.
Defined.

(** ** The two documents *)

Lemma documents_inv_frame (w w' : ComponentWidget) :
  textHelp w' = textHelp w ->
  src_doc w' = src_doc w ->
  _html_css_lex w' = _html_css_lex w ->
  documents_inv w -> documents_inv w'.
Proof. unfold documents_inv. now intros -> -> ->. Qed.

Lemma documents_inv_selected
    (hl : option Pygments) (n : string) (c : QComponent) (p text : string)
    (w : ComponentWidget) :
  documents_inv w -> documents_inv (selected hl n c p text w).
Proof.
  unfold documents_inv, selected, source_shown.
  intros (Hcss & Hlex & _). destruct hl as [pygments|]; cbn.
  - split; [exact Hcss |]. split; [now right | right; eauto].
  - split; [exact Hcss |]. split; [exact Hlex | right; eauto].
Qed.

(** X10. Whatever calls the widget has served since it was made: the help
    document has the style sheet given to it at construction; the style
    sheet cached in [_html_css_lex] is the one the source document has (or
    none was ever set); and the help pane either holds what it held when the
    widget was made or the whole help text of some component. *)
Theorem documents_invariant (w : ComponentWidget) :
  reachable w -> documents_inv w.
Proof.
  unfold reachable. revert w.
  apply (rtc_ind_r documents_inv __init__).
  - unfold documents_inv. cbn. split; [reflexivity |]. split; now left.
  - intros w1 w2 _ Hstep IH.
    destruct Hstep as [env name w1 | env parent w1].
    + destruct (set_component_final env w1 name)
        as [-> | [(t & ->) | [(t & p & ->) | (n & c & p & text & ->)]]].
      * now apply (documents_inv_frame w1).
      * now apply (documents_inv_frame w1).
      * now apply (documents_inv_frame w1).
      * now apply documents_inv_selected.
    + destruct (edit_source_final env w1 parent) as [-> | (e & ->)];
        [assumption | now apply (documents_inv_frame w1)].
Qed.

Lemma documents_invariant_witness :
  documents_inv
    (final (set_component (Some "Q1") highlighting_env
              (final (set_component (Some "missing") demo_env __init__)))).
Proof.
  apply documents_invariant. unfold reachable.
  eapply rtc_l; [apply step_set_component |].
  eapply rtc_l; [apply step_set_component |].
  apply rtc_refl.
Defined.

(** ** What the methods read *)

Lemma resolve_design (env env' : Env) (self : ComponentWidget) :
  design env = design env' -> resolve env self = resolve env' self.
Proof. unfold resolve. now intros ->. Qed.

(** X11. The help pane and the editor need the registry only: in two
    environments with the same design, [_set_help] and [edit_source] run the
    same, whatever files can be read and whether pygments is there; and
    clearing the selection runs the same in any two environments, whatever
    their designs. *)
Theorem help_and_editor_ignore_files
    (env env' : Env) (self : ComponentWidget) (parent : option string) :
  (design env = design env' ->
   _set_help env self = _set_help env' self
   /\ edit_source parent env self = edit_source parent env' self)
  /\ set_component None env self = set_component None env' self.
Proof.
  split; [| reflexivity].
  intros Hd. pose proof (resolve_design env env' self Hd) as Hres.
  split.
  - py_unfold. cbn. rewrite Hres.
    destruct (resolve env' self) as [c|]; [| reflexivity].
    cbn. destruct (source_file (__class__ c)); reflexivity.
  - py_unfold. cbn. rewrite Hres.
    destruct (resolve env' self) as [c|]; [| reflexivity].
    cbn. destruct (source_file (__class__ c)); reflexivity.
Qed.

Lemma help_and_editor_ignore_files_witness :
  _set_help demo_env (with_component_name (Some "Q1") __init__)
  = _set_help moved_env (with_component_name (Some "Q1") __init__)
  /\ set_component None demo_env __init__
     = set_component None no_design_env __init__.
Proof.
  split.
  - exact (proj1 (proj1
      (help_and_editor_ignore_files demo_env moved_env
         (with_component_name (Some "Q1") __init__) None) eq_refl)).
  - exact (proj2
      (help_and_editor_ignore_files demo_env no_design_env __init__ None)).
Defined.

(** X12. While no design is loaded the [component] property is [None]
    whatever name is stored: every selection of a name raises
    [AttributeError] with nothing shown, the editor request warns, and the
    help pane is left alone. *)
Theorem no_design_loaded
    (env : Env) (self : ComponentWidget) (parent : option string) :
  design env = None ->
  resolve env self = None
  /\ (forall n,
        set_component (Some n) env self
        = mkRun (with_component_name (Some n) self) [] (Raised AttributeError))
  /\ edit_source parent env self
     = mkRun self [missing_selection_warning] (Returned tt)
  /\ _set_help env self = mkRun self [] (Returned tt).
Proof.
  intros Hd.
  assert (Hres : forall w, resolve env w = None)
    by (intros w; unfold resolve; now rewrite Hd).
  split; [apply Hres |]. split; [| split].
  - intros n. apply set_component_unresolved.
    unfold find_component. now rewrite Hd.
  - py_unfold. cbn. now rewrite Hres.
  - py_unfold. cbn. now rewrite Hres.
Qed.

Lemma no_design_loaded_witness :
  outcome (set_component (Some "Q1") no_design_env __init__)
  = Raised AttributeError.
Proof.
  pose proof (no_design_loaded no_design_env __init__ None eq_refl)
    as (_ & Hset & _).
  rewrite (Hset "Q1"). reflexivity.
Defined.

(** ** Docstring blocks *)

Lemma lstrip_blank (s : string) : blank s = true -> lstrip s = EmptyString.
Proof.
  induction s as [|a s IH]; [reflexivity |]. cbn.
  destruct (isspace a); [exact IH | discriminate].
Qed.

(** X13. A docstring that is there is never rendered as nothing: its block
    is not the empty string a missing docstring gives, even when the
    docstring holds white space only, in which case the block is the one of
    the empty docstring. *)
Theorem format_docstr_blank (doc : string) :
  format_docstr (Some doc) <> format_docstr None
  /\ (blank doc = true ->
      format_docstr (Some doc) = format_docstr (Some EmptyString)).
Proof.
  split.
  - unfold format_docstr, unlines, String.append. discriminate.
  - intros Hb. unfold format_docstr, strip. now rewrite (lstrip_blank doc Hb).
Qed.

Lemma format_docstr_blank_witness :
  format_docstr (Some ("  " +:+ nl)) = format_docstr (Some EmptyString).
Proof.
  exact (proj2 (format_docstr_blank ("  " +:+ nl)) eq_refl).
Defined.

(** ** The views together *)

(** X14. After a selection that went through, the views agree on the file:
    the path field shows it, the help pane holds it, and the editor asked
    for next is opened on it, for the class of the selected component. *)
Theorem editor_opens_on_shown_path
    (env : Env) (self : ComponentWidget) (parent : option string)
    (n : string) (c : QComponent) (p text : string) :
  find_component env n = Some c ->
  source_file (__class__ c) = Some p ->
  files env !! p = Some text ->
  let shown := final (set_component (Some n) env self) in
  let r := edit_source parent env shown in
  lineSourcePath shown = p
  /\ Substring p (rendered (contents (textHelp shown)))
  /\ calls r
     = [Create_source_edit_widget (editor_for c p parent);
        Logger_info "Edit sources window created. Please find on your screen."]
  /\ src_widgets (final r)
     = (src_widgets self ++ [editor_for c p parent])%list.
Proof.
  intros H Hf Hr. cbv zeta.
  assert (Hres : resolve env (final (set_component (Some n) env self)) = Some c).
  { rewrite resolve_find, set_component_stores_name. exact H. }
  rewrite (edit_source_opens env _ parent c p Hres Hf). cbn [final calls].
  rewrite (set_component_resolved_run env self n c p text H Hf Hr).
  cbn [final]. unfold selected, source_shown.
  split; [destruct (highlight env); reflexivity |].
  split; [| split; [reflexivity | destruct (highlight env); reflexivity]].
  destruct (highlight env); cbn; unfold help_text;
    apply Substring_app_r, Substring_app_l; in_line 7.
Qed.

Lemma editor_opens_on_shown_path_witness :
  calls (edit_source None demo_env
           (final (set_component (Some "Q1") demo_env __init__)))
  = [Create_source_edit_widget (editor_for Q1 transmon_pocket_py None);
     Logger_info "Edit sources window created. Please find on your screen."].
Proof.
  exact (proj1 (proj2 (proj2
    (editor_opens_on_shown_path demo_env __init__ None "Q1" Q1
       transmon_pocket_py transmon_pocket_src
       demo_Q1 eq_refl demo_source)))).
Defined.

(** X15. A selection does not look at what the widget shows: how the call
    ends and the calls it makes are the same from any two widgets. *)
Theorem selection_ignores_history
    (env : Env) (w w' : ComponentWidget) (name : option string) :
  outcome (set_component name env w) = outcome (set_component name env w')
  /\ calls (set_component name env w) = calls (set_component name env w').
Proof.
  destruct name as [n|]; [| now rewrite !set_component_None].
  destruct (find_component env n) as [c|] eqn:H.
  - destruct (source_file (__class__ c)) as [p|] eqn:Hf.
    + destruct (files env !! p) as [text|] eqn:Hr.
      * now rewrite !(set_component_resolved_run env _ n c p text H Hf Hr).
      * now rewrite !(set_component_unreadable env _ n c p H Hf Hr).
    + now rewrite !(set_component_no_source_file env _ n c H Hf).
  - now rewrite !(set_component_unresolved env _ n H).
Qed.

(** X16. A selection returns in exactly two cases: the name is [None], or
    the registry resolves it to a component whose class has a source file
    that can be read.  In every other case it raises. *)
Theorem set_component_returns_iff
    (env : Env) (self : ComponentWidget) (name : option string) :
  outcome (set_component name env self) = Returned tt
  <-> name = None
      \/ exists n c p text,
           name = Some n /\ find_component env n = Some c
           /\ source_file (__class__ c) = Some p
           /\ files env !! p = Some text.
Proof.
  split; [apply set_component_returns |].
  intros [-> | (n & c & p & text & -> & H & Hf & Hr)]; [reflexivity |].
  now rewrite (set_component_resolved_run env self n c p text H Hf Hr).
Qed.
